(** * EaselJS [DOMElement]: the bridge between the display list and an HTML element

    A shallow embedding of [src/display/DOMElement.js] and of the part of the
    ECMAScript number semantics its synchronization routine relies on
    (binary64 arithmetic, [x|0], number-to-string conversion), followed by the
    properties of the routine. *)

From Stdlib Require Import ZArith Floats Lia.
From stdpp Require Import gmap strings list pretty.

Set Warnings "-inexact-float".
Open Scope Z_scope.

(* ===================================================================== *)
(** ** ECMAScript numbers *)
(* ===================================================================== *)

Module JS.

(** A JavaScript Number is an IEEE 754 binary64 value. *)
Definition Number := float.

(** The mathematical integer obtained from a finite number by dropping its
    fractional part (ECMAScript's [truncate(ℝ(x))]); [NaN], the zeros and the
    infinities give 0, as in step 2 of [ToInt32]. *)
Definition truncate (x : Number) : Z :=
  match Prim2SF x with
  | S754_finite s m e =>
      let v := if 0 <=? e then Z.shiftl (Zpos m) e else Z.shiftr (Zpos m) (- e) in
      if s then - v else v
  | _ => 0
  end.

(** The signed 32-bit wrap of [ToInt32]: reduce modulo 2^32 into
    [-2^31, 2^31). *)
Definition wrap32 (i : Z) : Z :=
  let r := i mod 2 ^ 32 in
  if 2 ^ 31 <=? r then r - 2 ^ 32 else r.

Definition ToInt32 (x : Number) : Z := wrap32 (truncate x).

(** The Number denoting an integer (exact below 2^53 in magnitude, which
    covers every int32). The zero produced is [+0]. *)
Definition of_Z (z : Z) : Number :=
  let f := PrimFloat.of_uint63 (Uint63.of_Z (Z.abs z)) in
  if z <? 0 then PrimFloat.opp f else f.

(** [x | 0] *)
Definition bitor0 (x : Number) : Number := of_Z (ToInt32 x).

(** [x === y] and [x != y] on two Numbers: IEEE equality, so [NaN] differs
    from everything, itself included, and [-0] equals [+0]. *)
Definition strict_eq (x y : Number) : bool := PrimFloat.eqb x y.
Definition neq (x y : Number) : bool := negb (PrimFloat.eqb x y).

Definition isNaN (x : Number) : bool := PrimFloat.is_nan x.

(** *** Number::toString (radix 10) *)

(** Exact comparison of [s * 10^p] with [M * 2^q]. *)
Definition cmp_scaled (s p M q : Z) : comparison :=
  Z.compare (s * 10 ^ Z.max p 0 * 2 ^ Z.max (- q) 0)
            (M * 2 ^ Z.max q 0 * 10 ^ Z.max (- p) 0).

(** Does the decimal [s * 10^p] round (to nearest, ties to even) to the
    positive double [m * 2^e]?  The interval ends are expressed in units of
    [2^(e-2)]; the gap below a power of two is half the gap above it. *)
Definition rounds_to (m e s p : Z) : bool :=
  let lo := 4 * m - (if (m =? 2 ^ 52) && (-1074 <? e) then 1 else 2) in
  let hi := 4 * m + 2 in
  match cmp_scaled s p lo (e - 2) with
  | Lt => false
  | Eq => Z.even m
  | Gt => match cmp_scaled s p hi (e - 2) with
          | Lt => true
          | Eq => Z.even m
          | Gt => false
          end
  end.

(** The [n] with [10^(n-1) <= m * 2^e < 10^n]. *)
Definition decade (m e : Z) : Z :=
  let est := ((Z.log2 m + e) * 30103) / 100000 in
  let above n := match cmp_scaled 1 n m e with Gt => true | _ => false end in
  if above est then est else if above (est + 1) then est + 1 else est + 2.

(** The [k]-digit candidate for [m * 2^e] in decade [n], if one rounds to it:
    of the two neighbours the closer one, the even one on a tie. *)
Definition candidate (m e k n : Z) : option Z :=
  let p := n - k in
  let s0 := (m * 2 ^ Z.max e 0 * 10 ^ Z.max (- p) 0)
            / (2 ^ Z.max (- e) 0 * 10 ^ Z.max p 0) in
  let ok s := (10 ^ (k - 1) <=? s) && (s <? 10 ^ k) && rounds_to m e s p in
  match ok s0, ok (s0 + 1) with
  | true, false => Some s0
  | false, true => Some (s0 + 1)
  | false, false => None
  | true, true =>
      match cmp_scaled (2 * s0 + 1) p (2 * m) e with
      | Gt => Some s0
      | Lt => Some (s0 + 1)
      | Eq => Some (if Z.even s0 then s0 else s0 + 1)
      end
  end.

(** The shortest digit string: the least [k] for which some [s] of [k] digits
    and some [n] have [s * 10^(n-k)] round to the number; returns [(s, k, n)]. *)
Fixpoint shortest (m e nx : Z) (ks : list Z) : Z * Z * Z :=
  match ks with
  | [] => (m, 0, nx)
  | k :: ks' =>
      match candidate m e k nx with
      | Some s => (s, k, nx)
      | None =>
          match candidate m e k (nx + 1) with
          | Some s => (s, k, nx + 1)
          | None => shortest m e nx ks'
          end
      end
  end.

Fixpoint zeros (n : nat) : string :=
  match n with O => "" | S n' => "0" +:+ zeros n' end.

(** The layout of the digits [s] (of length [k]) with decimal point position
    [n]: plain, fractional, small fraction, or exponent notation. *)
Definition layout (s k n : Z) : string :=
  let ds : string := pretty s in
  if (k <=? n) && (n <=? 21) then ds +:+ zeros (Z.to_nat (n - k))
  else if (0 <? n) && (n <=? 21) then
    String.substring 0 (Z.to_nat n) ds +:+ "." +:+ String.substring (Z.to_nat n) (Z.to_nat (k - n)) ds
  else if (-6 <? n) && (n <=? 0) then "0." +:+ zeros (Z.to_nat (- n)) +:+ ds
  else
    let ex := (if n - 1 <? 0 then "-" else "+") +:+ pretty (Z.abs (n - 1)) in
    if k =? 1 then ds +:+ "e" +:+ ex
    else String.substring 0 1 ds +:+ "." +:+ String.substring 1 (Z.to_nat (k - 1)) ds +:+ "e" +:+ ex.

Definition Number_toString (x : Number) : string :=
  match Prim2SF x with
  | S754_nan => "NaN"
  | S754_zero _ => "0"
  | S754_infinity s => if s then "-Infinity" else "Infinity"
  | S754_finite sg m e =>
      let '(s, k, n) := shortest (Zpos m) e (decade (Zpos m) e) [1; 2; 3; 4; 5; 6; 7; 8; 9; 10; 11; 12; 13; 14; 15; 16; 17] in
      (if sg then "-" else "") +:+ layout s k n
  end.

End JS.

(* ===================================================================== *)
(** ** The display-list value types the routine consumes *)
(* ===================================================================== *)

Import JS.

Record Matrix2D := mkMatrix2D {
  a : Number; b : Number; c : Number; d : Number; tx : Number; ty : Number
}.

(** Modelled from the spec: [Matrix2D] ([src/geom/Matrix2D.js]) is not among
    the sources.  A fresh matrix is the identity. *)
Definition identity : Matrix2D :=
  mkMatrix2D 1%float 0%float 0%float 1%float 0%float 0%float.

(** Modelled from the spec: [Matrix2D.equals] is not among the sources; the
    spec has the cached and the current matrix compared "using exact component
    equality". *)
Definition equals (this matrix : Matrix2D) : bool :=
  strict_eq (tx this) (tx matrix) && strict_eq (ty this) (ty matrix) &&
  strict_eq (a this) (a matrix) && strict_eq (b this) (b matrix) &&
  strict_eq (c this) (c matrix) && strict_eq (d this) (d matrix).

(** Modelled from the spec: [Matrix2D.copy] is not among the sources; the spec
    has the cache updated "by value copy, not reference aliasing": the six
    components of the receiver are overwritten. *)
Definition copy (this matrix : Matrix2D) : Matrix2D :=
  mkMatrix2D (a matrix) (b matrix) (c matrix) (d matrix) (tx matrix) (ty matrix).

(** The record [getConcatenatedDisplayProps] fills in: cumulative visibility,
    opacity and matrix. *)
Record DisplayProps := mkDisplayProps {
  visible : bool;
  alpha : Number;
  matrix : Matrix2D
}.

(** Modelled from the spec: the constructor [new DisplayProps(visible, alpha)]
    ([src/geom/DisplayProps.js]) is not among the sources; the holder it
    creates has the given visibility and opacity and a fresh matrix, which the
    routine overwrites at once. *)
Definition new_DisplayProps (visible : bool) (alpha : Number) : DisplayProps :=
  mkDisplayProps visible alpha identity.

(* ===================================================================== *)
(** ** The external element and the node *)
(* ===================================================================== *)

(** An element's [style] object: property name to string value; a property
    never assigned is absent. *)
Record HTMLElement := mkHTMLElement {
  style : gmap string string
}.

(** One assignment [style.k = v]. *)
Definition StyleWrite : Type := string * string.

Record DOMElement := mkDOMElement {
  htmlElement : option HTMLElement;   (* [null] when no element is bound *)
  mouseEnabled : bool;
  _oldProps : option DisplayProps     (* [null] until the first transform write *)
}.

(** What a call can throw. *)
Inductive exn :=
| TypeError                  (* a property read on [null] *)
| ThrownString (msg : string).

(** The result of a method call: its completion (normal with a value, or
    abrupt), the node as the call leaves it, and the style assignments the
    call performed on the bound element, in order. *)
Record outcome (A : Type) := mkOutcome {
  completion : A + exn;
  final : DOMElement;
  trace : list StyleWrite
}.
Arguments mkOutcome {A}.
Arguments completion {A}.
Arguments final {A}.
Arguments trace {A}.

(** A style object under mutation, with the assignments made so far. *)
Definition assign (k v : string) (st : gmap string string * list StyleWrite)
  : gmap string string * list StyleWrite :=
  (<[k := v]> st.1, st.2 ++ [(k, v)]).

Definition with_style (this : DOMElement) (s : gmap string string) : DOMElement :=
  mkDOMElement (Some (mkHTMLElement s)) (mouseEnabled this) (_oldProps this).

(** *** constructor *)

(** [constructor (htmlElement)]: the argument is an element or an id looked up
    in the document. *)
Definition constructor (document : gmap string HTMLElement)
    (arg : string + HTMLElement) : outcome unit :=
  let htmlElement :=
    match arg with inl id => document !! id | inr e => Some e end in
  match htmlElement with
  | None => mkOutcome (inr TypeError) (mkDOMElement None false None) []
  | Some e =>
      let st := (style e, []) in
      let st := assign "position" "absolute" st in
      let st := assign "OTransformOrigin" "0% 0%" st in
      let st := assign "MozTransformOrigin" "0% 0%" st in
      let st := assign "msTransformOrigin" "0% 0%" st in
      let st := assign "WebkitTransformOrigin" "0% 0%" st in
      let st := assign "transformOrigin" "0% 0%" st in
      mkOutcome (inl tt) (mkDOMElement (Some (mkHTMLElement st.1)) false None) st.2
  end.

(** *** public methods *)

Definition isVisible (this : DOMElement) : bool :=
  match htmlElement this with Some _ => true | None => false end.

(** Arguments a caller may pass. *)
Inductive Value :=
| VUndefined | VNull | VBool (b : bool) | VNumber (x : Number) | VString (s : string).

Definition draw (ctx ignoreCache : Value) (this : DOMElement) : outcome bool :=
  mkOutcome (inl true) this [].

(** The methods below declare no parameter; whatever is passed is ignored. *)

Definition cache (args : list Value) (this : DOMElement) : outcome unit :=
  mkOutcome (inl tt) this [].
Definition uncache (args : list Value) (this : DOMElement) : outcome unit :=
  mkOutcome (inl tt) this [].
Definition updateCache (args : list Value) (this : DOMElement) : outcome unit :=
  mkOutcome (inl tt) this [].
Definition hitTest (args : list Value) (this : DOMElement) : outcome unit :=
  mkOutcome (inl tt) this [].
Definition localToGlobal (args : list Value) (this : DOMElement) : outcome unit :=
  mkOutcome (inl tt) this [].
Definition globalToLocal (args : list Value) (this : DOMElement) : outcome unit :=
  mkOutcome (inl tt) this [].
Definition localToLocal (args : list Value) (this : DOMElement) : outcome unit :=
  mkOutcome (inl tt) this [].

Definition clone (args : list Value) (this : DOMElement) : outcome DOMElement :=
  mkOutcome (inr (ThrownString "DOMElement cannot be cloned.")) this [].

(** *** _handleDrawEnd *)

(** [(x*n|0)/n] *)
Definition to_precision (n x : Number) : Number := (bitor0 (x * n) / n)%float.

(** [(t+0.5|0)] *)
Definition to_pixel (t : Number) : Number := bitor0 (t + 0.5)%float.

(** The synchronization routine. [props] is the value of
    [this.getConcatenatedDisplayProps(this._props)], computed by the base
    class. *)
Definition _handleDrawEnd (props : DisplayProps) (this : DOMElement) : outcome unit :=
  match htmlElement this with
  | None => mkOutcome (inl tt) this []
  | Some o =>
      let st := (style o, []) in
      let mtx := matrix props in
      let visibility : string := if visible props then "visible" else "hidden" in
      let st :=
        if bool_decide (st.1 !! "visibility" ≠ Some visibility)
        then assign "visibility" visibility st else st in
      if negb (visible props) then mkOutcome (inl tt) (with_style this st.1) st.2
      else
        let oldProps := _oldProps this in
        let oldMtx := matrix <$> oldProps in
        let n : Number := 10000%float in
        let '(st, oldProps) :=
          if match oldMtx with None => true | Some om => negb (equals om mtx) end
          then
            let str := "matrix(" +:+ Number_toString (to_precision n (a mtx))
                       +:+ "," +:+ Number_toString (to_precision n (b mtx))
                       +:+ "," +:+ Number_toString (to_precision n (c mtx))
                       +:+ "," +:+ Number_toString (to_precision n (d mtx))
                       +:+ "," +:+ Number_toString (to_pixel (tx mtx)) in
            let v := str +:+ "," +:+ Number_toString (to_pixel (ty mtx)) +:+ ")" in
            let st := assign "msTransform" v st in
            let st := assign "OTransform" v st in
            let st := assign "WebkitTransform" v st in
            let st := assign "transform" v st in
            let st := assign "MozTransform"
                        (str +:+ "px," +:+ Number_toString (to_pixel (ty mtx)) +:+ "px)") st in
            let oldProps :=
              match oldProps with
              | None => new_DisplayProps true PrimFloat.nan
              | Some p => p
              end in
            (st, Some (mkDisplayProps (visible oldProps) (alpha oldProps)
                                      (copy (matrix oldProps) mtx)))
          else (st, oldProps) in
        match oldProps with
        | None => mkOutcome (inr TypeError)
                    (mkDOMElement (Some (mkHTMLElement st.1)) (mouseEnabled this) None) st.2
        | Some op =>
            let '(st, op) :=
              if neq (alpha op) (alpha props)
              then (assign "opacity" ("" +:+ Number_toString (to_precision n (alpha props))) st,
                    mkDisplayProps (visible op) (alpha props) (matrix op))
              else (st, op) in
            mkOutcome (inl tt)
              (mkDOMElement (Some (mkHTMLElement st.1)) (mouseEnabled this) (Some op)) st.2
        end
  end.

(** *** _tick and the stage's draw-end signal *)

Module Stage.

(** Nodes are told apart by identity. *)
Definition NodeId := nat.

(** A registered listener: the function [on] builds around a node's
    [_handleDrawEnd], which calls it with the node as [this] (the scope) and,
    when [once] is set, removes itself after the call. *)
Record Listener := mkListener { scope : NodeId; once : bool }.

(** The stage is an event dispatcher of the createjs core library, which is
    not among the sources: it keeps its listeners per event type, in the
    order they were added. *)
Record Stage := mkStage { listeners : gmap string (list Listener) }.

Definition listeners_of (type : string) (st : Stage) : list Listener :=
  default [] (listeners st !! type).

Definition subscribers (type : string) (st : Stage) : list NodeId :=
  scope <$> listeners_of type st.

(** The dispatcher's [on(type, handler, scope, once)]: it wraps the handler in
    a new function and adds that function to the listeners of the type.  The
    function is new at every call, so it is never found among the listeners
    already there and every call adds one. *)
Definition on (type : string) (self : NodeId) (once : bool) (st : Stage) : Stage :=
  mkStage (<[type := listeners_of type st ++ [mkListener self once]]> (listeners st)).

(** The dispatch of an event: every listener of the type runs once,
    synchronously, in the order of addition, and those added to run once are
    removed.  Returns the nodes whose handler ran, in order. *)
Definition dispatch (type : string) (st : Stage) : list NodeId * Stage :=
  (subscribers type st,
   mkStage (<[type := filter (λ l, once l = false) (listeners_of type st)]> (listeners st))).

End Stage.

(** [_tick (evtObj)]: [stage] is the value of the inherited getter
    [this.stage] ([null] while the node is on no stage).  The call
    [super._tick(evtObj)] that follows belongs to the base class and touches
    neither the element nor the stage's listeners. *)
Definition _tick (self : Stage.NodeId) (stage : option Stage.Stage) : option Stage.Stage :=
  match stage with
  | Some st => Some (Stage.on "drawend" self true st)
  | None => None
  end.

(** *** sequences of calls to the methods that are not applicable *)

Inductive Stub :=
| Cache | Uncache | UpdateCache | HitTest | LocalToGlobal | GlobalToLocal | LocalToLocal.

Definition call (m : Stub) : list Value → DOMElement → outcome unit :=
  match m with
  | Cache => cache
  | Uncache => uncache
  | UpdateCache => updateCache
  | HitTest => hitTest
  | LocalToGlobal => localToGlobal
  | GlobalToLocal => globalToLocal
  | LocalToLocal => localToLocal
  end.

(** Run the calls in order, stopping at the first that throws. *)
Fixpoint run (calls : list (Stub * list Value)) (this : DOMElement) : outcome unit :=
  match calls with
  | [] => mkOutcome (inl tt) this []
  | (m, args) :: rest =>
      let r := call m args this in
      match completion r with
      | inr e => r
      | inl _ =>
          let r' := run rest (final r) in
          mkOutcome (completion r') (final r') (trace r ++ trace r')
      end
  end.

(* ===================================================================== *)
(** ** Vocabulary of the properties *)
(* ===================================================================== *)

(** The spec's rounding of a translation, in its words: "add 0.5 then truncate
    toward zero". *)
Definition spec_round (t : Number) : Number := of_Z (truncate (t + 0.5)%float).

(** The spec's truncation of a linear component or opacity, in its words:
    "multiply by 10000, truncate to integer, divide by 10000". *)
Definition spec_trunc4 (x : Number) : Number :=
  (of_Z (truncate (x * 10000)%float) / 10000)%float.

(** An integer that a signed 32-bit word holds. *)
Definition int32 (z : Z) : Prop := - 2 ^ 31 <= z < 2 ^ 31.

(** No component of the snapshot is [NaN]. *)
Definition numeric (props : DisplayProps) : Prop :=
  isNaN (alpha props) = false ∧
  isNaN (a (matrix props)) = false ∧ isNaN (b (matrix props)) = false ∧
  isNaN (c (matrix props)) = false ∧ isNaN (d (matrix props)) = false ∧
  isNaN (tx (matrix props)) = false ∧ isNaN (ty (matrix props)) = false.

(** The properties that carry the placement string. *)
Definition transform_properties : list string :=
  ["transform"; "WebkitTransform"; "OTransform"; "msTransform"].

(** A node bound to a fresh element, as the constructor leaves it, and that
    element. *)
Definition fresh : DOMElement := final (constructor ∅ (inr (mkHTMLElement ∅))).
Definition fresh_element : HTMLElement :=
  default (mkHTMLElement ∅) (htmlElement fresh).

(** The text [matrix(A,B,C,D,X,Y)] of the element attribute contract, with the
    unit [u] after each translation (["px"] for the Mozilla property). *)
Definition css_matrix (A B C D X Y : Number) (u : string) : string :=
  ("matrix(" +:+ Number_toString A +:+ "," +:+ Number_toString B
   +:+ "," +:+ Number_toString C +:+ "," +:+ Number_toString D
   +:+ "," +:+ Number_toString X)
  +:+ u +:+ "," +:+ Number_toString Y +:+ u +:+ ")".

(** The element mirrors the snapshot: its visibility is the snapshot's and,
    when visible, the cache compares equal to the snapshot's matrix and
    opacity. *)
Definition synced (props : DisplayProps) (this : DOMElement) : Prop :=
  match htmlElement this with
  | None => True
  | Some o =>
      style o !! "visibility" = Some (if visible props then "visible" else "hidden") ∧
      (visible props = true →
       ∃ op, _oldProps this = Some op ∧
             equals (matrix op) (matrix props) = true ∧
             neq (alpha op) (alpha props) = false)
  end.

(** The stage with no listener. *)
Definition empty_stage : Stage.Stage := Stage.mkStage ∅.

(** A node with no element bound. *)
Definition unbound : DOMElement := mkDOMElement None false None.

(** The assignment [node.htmlElement = e] to the public property. *)
Definition rebind (e : option HTMLElement) (this : DOMElement) : DOMElement :=
  mkDOMElement e (mouseEnabled this) (_oldProps this).

(** The node after a run of synchronization cycles, one per snapshot. *)
Definition cycles (ps : list DisplayProps) (this : DOMElement) : DOMElement :=
  foldl (λ node p, final (_handleDrawEnd p node)) this ps.

(** The placement string [_handleDrawEnd] builds for a matrix, with the unit
    [u] after each translation, and the opacity string it builds. *)
Definition placement (u : string) (m : Matrix2D) : string :=
  css_matrix (to_precision 10000%float (a m)) (to_precision 10000%float (b m))
    (to_precision 10000%float (c m)) (to_precision 10000%float (d m))
    (to_pixel (tx m)) (to_pixel (ty m)) u.

Definition opacity_string (al : Number) : string :=
  Number_toString (to_precision 10000%float al).

(** The style properties the constructor sets besides [position]. *)
Definition origin_properties : list string :=
  ["transformOrigin"; "WebkitTransformOrigin"; "msTransformOrigin";
   "MozTransformOrigin"; "OTransformOrigin"].

(** The style properties [_handleDrawEnd] assigns, in the order of its
    assignments. *)
Definition write_order : list string :=
  ["visibility"; "msTransform"; "OTransform"; "WebkitTransform"; "transform";
   "MozTransform"; "opacity"].

(** The cache mirrors the element: the transform properties and the opacity
    of the bound element are the strings of the cached matrix and opacity. *)
Definition coherent (this : DOMElement) : Prop :=
  match htmlElement this, _oldProps this with
  | Some o, Some op =>
      (∀ k, k ∈ transform_properties →
            style o !! k = Some (placement "" (matrix op))) ∧
      style o !! "MozTransform" = Some (placement "px" (matrix op)) ∧
      style o !! "opacity" = Some (opacity_string (alpha op))
  | _, _ => True
  end.

(** The bound element displays the snapshot. *)
Definition shows (props : DisplayProps) (this : DOMElement) : Prop :=
  ∃ o, htmlElement this = Some o ∧
       style o !! "visibility" = Some "visible" ∧
       (∀ k, k ∈ transform_properties →
             style o !! k = Some (placement "" (matrix props))) ∧
       style o !! "MozTransform" = Some (placement "px" (matrix props)) ∧
       style o !! "opacity" = Some (opacity_string (alpha props)).

(* ===================================================================== *)
(** ** Lemmas on numbers *)
(* ===================================================================== *)

Lemma wrap32_int32 z : int32 z → wrap32 z = z.
Proof.
  unfold int32, wrap32. intros [Hlo Hhi].
  destruct (Z_lt_le_dec z 0) as [Hneg | Hpos].
  - assert (Hm : z mod 2 ^ 32 = z + 2 ^ 32).
    { symmetry. apply (Z.mod_unique _ _ (-1)); lia. }
    rewrite Hm. destruct (Z.leb_spec (2 ^ 31) (z + 2 ^ 32)); lia.
  - rewrite Z.mod_small by lia.
    destruct (Z.leb_spec (2 ^ 31) z); lia.
Qed.

Lemma wrap32_range z : int32 (wrap32 z).
Proof.
  unfold int32, wrap32.
  pose proof (Z.mod_pos_bound z (2 ^ 32) ltac:(lia)).
  destruct (Z.leb_spec (2 ^ 31) (z mod 2 ^ 32)); lia.
Qed.

Lemma ToInt32_truncate x : int32 (truncate x) → ToInt32 x = truncate x.
Proof. apply wrap32_int32. Qed.

Lemma to_pixel_spec t : int32 (truncate (t + 0.5)%float) → to_pixel t = spec_round t.
Proof. intros H. unfold to_pixel, spec_round, bitor0. by rewrite ToInt32_truncate. Qed.

Lemma to_precision_spec x :
  int32 (truncate (x * 10000)%float) → to_precision 10000%float x = spec_trunc4 x.
Proof. intros H. unfold to_precision, spec_trunc4, bitor0. by rewrite ToInt32_truncate. Qed.

Lemma equals_copy old mtx :
  isNaN (a mtx) = false → isNaN (b mtx) = false → isNaN (c mtx) = false →
  isNaN (d mtx) = false → isNaN (tx mtx) = false → isNaN (ty mtx) = false →
  equals (copy old mtx) mtx = true.
Proof.
  unfold isNaN, PrimFloat.is_nan, equals, strict_eq, copy. simpl.
  intros Ha Hb Hc Hd Hx Hy.
  apply negb_false_iff in Ha, Hb, Hc, Hd, Hx, Hy.
  by rewrite Ha, Hb, Hc, Hd, Hx, Hy.
Qed.

Lemma neq_self x : isNaN x = false → neq x x = false.
Proof. done. Qed.

(** The conversions on sample values, as a JavaScript engine prints them. *)
Example Number_toString_samples :
  Number_toString <$> [0.1234; 1; -0; 1e21; 1e-7; 0.000001; 123456.7; 0.1 + 0.2;
                       4.35 * 100; 1 / 3; 5e-324; 1.7976931348623157e308;
                       PrimFloat.nan; PrimFloat.neg_infinity]%float
  = ["0.1234"; "1"; "0"; "1e+21"; "1e-7"; "0.000001"; "123456.7";
     "0.30000000000000004"; "434.99999999999994"; "0.3333333333333333";
     "5e-324"; "1.7976931348623157e+308"; "NaN"; "-Infinity"].
Proof. vm_compute. reflexivity. Qed.

Example ToInt32_samples :
  ToInt32 <$> [4.2; -1.7; -0.5; 2147483647.9; 2147483648; -2147483649;
               4294967296.7; PrimFloat.nan; PrimFloat.infinity]%float
  = [4; -1; 0; 2147483647; -2147483648; 2147483647; 0; 0; 0].
Proof. vm_compute. reflexivity. Qed.

(** The first cycle on a fresh node writes everything, in the order of the
    assignments. *)
Example first_cycle :
  trace (_handleDrawEnd
           (mkDisplayProps true 0.5%float
              (mkMatrix2D 1.23456789 0 0 0.99999 3.7 (-2.2))%float) fresh)
  = [("visibility", "visible");
     ("msTransform", "matrix(1.2345,0,0,0.9999,4,-1)");
     ("OTransform", "matrix(1.2345,0,0,0.9999,4,-1)");
     ("WebkitTransform", "matrix(1.2345,0,0,0.9999,4,-1)");
     ("transform", "matrix(1.2345,0,0,0.9999,4,-1)");
     ("MozTransform", "matrix(1.2345,0,0,0.9999,4px,-1px)");
     ("opacity", "0.5")].
Proof. vm_compute. reflexivity. Qed.

Lemma copy_eq old mtx : copy old mtx = mtx.
Proof. by destruct mtx. Qed.

(* ===================================================================== *)
(** ** The synchronization routine, case by case *)
(* ===================================================================== *)

(** Splits the routine on the tests it makes, in the order it makes them. *)
Ltac routine_cases this props :=
  unfold _handleDrawEnd;
  destruct (htmlElement this) as [?o|] eqn:?Hbound; simpl;
  [ destruct (visible props) eqn:?Hvisible; simpl;
    [ try (case_bool_decide as Hvisibility; simpl);
      (destruct (_oldProps this) as [?op|] eqn:?Hcache; simpl;
       [ destruct (equals (matrix op) (matrix props)) eqn:?Hsame; simpl;
         destruct (neq (alpha op) (alpha props)) eqn:?Halpha; simpl
       | destruct (neq PrimFloat.nan (alpha props)) eqn:?Halpha; simpl ])
    | try (case_bool_decide as Hvisibility; simpl) ]
  | ].

(** Finds a write in an explicit trace. *)
Ltac find_write :=
  repeat first [apply list_elem_of_here | apply list_elem_of_further].

(** Splits a membership in an explicit trace into its entries. *)
Ltac each_write H :=
  repeat (apply elem_of_cons in H as [H | H]);
  [ .. | by apply not_elem_of_nil in H ].

Section Routine.
Variables (props : DisplayProps) (this : DOMElement).

Lemma handleDrawEnd_normal : completion (_handleDrawEnd props this) = inl tt.
Proof. by routine_cases this props. Qed.

Lemma handleDrawEnd_synced :
  synced props this → _handleDrawEnd props this = mkOutcome (inl tt) this [].
Proof.
  unfold synced, _handleDrawEnd. destruct this as [[[sty]|] me cache]; simpl; [|done].
  intros [Hvis Hcache]. rewrite bool_decide_eq_false_2 by (intros H; by apply H).
  destruct (visible props); simpl; [|done].
  destruct Hcache as (op & -> & Hm & Ha); [done|]. simpl.
  rewrite Hm. simpl. rewrite Ha. simpl. by destruct op.
Qed.

Lemma handleDrawEnd_syncs :
  (visible props = true → numeric props) →
  synced props (final (_handleDrawEnd props this)).
Proof.
  intros Hnum. unfold synced.
  routine_cases this props; rewrite ?Hbound; try done.
  all: split;
    [ rewrite ?lookup_insert_ne by done;
      try first [apply lookup_insert_eq | by apply dec_stable] | ].
  all: try (intros; congruence).
  all: intros _; destruct Hnum as (Hal & Ha & Hb & Hc & Hd & Hx & Hy); [done|].
  all: eexists; split; [reflexivity|]; simpl.
  all: rewrite ?equals_copy, ?neq_self by done; try done.
  all: try (split; [done|]); by apply negb_false_iff in Halpha.
Qed.

End Routine.

(* ===================================================================== *)
(** ** Properties *)
(* ===================================================================== *)

(** C7. With no element bound, the synchronization routine completes
    normally, performs no write and leaves the node, its cache of the
    last-applied state included, as it was. *)
Theorem handleDrawEnd_without_element props this :
  htmlElement this = None →
  _handleDrawEnd props this = mkOutcome (inl tt) this [].
Proof. intros H. unfold _handleDrawEnd. by rewrite H. Qed.

Lemma handleDrawEnd_without_element_witness :
  _handleDrawEnd (mkDisplayProps true 0.5%float identity) unbound
  = mkOutcome (inl tt) unbound [].
Proof. apply handleDrawEnd_without_element. reflexivity. Defined.

(** C2. When an element is bound and the snapshot is not visible, the routine
    completes normally; the only write it can make is [visibility = "hidden"],
    made exactly when the element's visibility is not already ["hidden"]; no
    other style property changes, and the cache is left as it was. *)
Theorem hidden_snapshot_writes_visibility_only props this o :
  htmlElement this = Some o → visible props = false →
  let out := _handleDrawEnd props this in
  completion out = inl tt ∧
  trace out = (if bool_decide (style o !! "visibility" = Some "hidden")
               then [] else [("visibility", "hidden")]) ∧
  _oldProps (final out) = _oldProps this ∧
  ∃ o', htmlElement (final out) = Some o' ∧
        style o' !! "visibility" = Some "hidden" ∧
        ∀ k, k ≠ "visibility" → style o' !! k = style o !! k.
Proof.
  intros Ho Hv. cbv zeta. unfold _handleDrawEnd. rewrite Ho, Hv.
  destruct o as [sty]. simpl.
  destruct (decide (sty !! "visibility" = Some "hidden")) as [Hh | Hh].
  - rewrite bool_decide_eq_false_2 by (intros H; by apply H).
    rewrite (bool_decide_eq_true_2 _ Hh). simpl.
    repeat split. by exists (mkHTMLElement sty).
  - rewrite (bool_decide_eq_true_2 _ Hh), (bool_decide_eq_false_2 _ Hh). simpl.
    repeat split. eexists. split; [done|]. split.
    + apply lookup_insert_eq.
    + intros k Hk. by apply lookup_insert_ne.
Qed.

Lemma hidden_snapshot_writes_visibility_only_witness :
  let out := _handleDrawEnd (mkDisplayProps false 0.5%float identity) fresh in
  completion out = inl tt ∧
  trace out = [("visibility", "hidden")] ∧
  _oldProps (final out) = None.
Proof.
  pose proof (hidden_snapshot_writes_visibility_only
                (mkDisplayProps false 0.5%float identity) fresh
                fresh_element eq_refl eq_refl) as (H1 & H2 & H3 & _).
  cbv zeta. split; [exact H1|]. split; [exact H2 | exact H3].
Defined.

(** C6. Every call of [clone] throws the string "DOMElement cannot be
    cloned.", leaves the node (element reference, cache) as it was and writes
    nothing to the element. *)
Theorem clone_always_throws args this :
  completion (clone args this) = inr (ThrownString "DOMElement cannot be cloned.") ∧
  final (clone args this) = this ∧
  trace (clone args this) = [].
Proof. done. Qed.

(** C8. Any sequence of calls, with any arguments, of [cache], [uncache],
    [updateCache], [hitTest], [localToGlobal], [globalToLocal] and
    [localToLocal] completes normally, writes nothing to the element and
    leaves the node as it was. *)
Theorem stubs_change_nothing calls this :
  run calls this = mkOutcome (inl tt) this [].
Proof.
  induction calls as [|[m args] rest IH]; [done|].
  simpl. destruct m; simpl; by rewrite IH.
Qed.

(** C3, restricted to snapshots without [NaN]. Take two consecutive
    synchronization cycles with the same snapshot which, when visible, has no
    [NaN] among its matrix components and opacity. The second cycle completes
    normally, writes nothing to the element and leaves the node as the first
    cycle left it. *)
Theorem unchanged_snapshot_no_rewrite props this :
  (visible props = true → numeric props) →
  let first := _handleDrawEnd props this in
  let second := _handleDrawEnd props (final first) in
  completion second = inl tt ∧ trace second = [] ∧ final second = final first.
Proof.
  intros Hnum. cbv zeta.
  by rewrite (handleDrawEnd_synced _ _ (handleDrawEnd_syncs props this Hnum)).
Qed.

Lemma unchanged_snapshot_no_rewrite_witness :
  let props := mkDisplayProps true 0.5%float
                 (mkMatrix2D 1.5 0 0 1.5 3.7 (-2.2))%float in
  let first := _handleDrawEnd props fresh in
  let second := _handleDrawEnd props (final first) in
  completion second = inl tt ∧ trace second = [] ∧ final second = final first.
Proof.
  apply unchanged_snapshot_no_rewrite.
  intros _. repeat split; vm_compute; reflexivity.
Defined.

(** C3, as stated, fails on a snapshot with a [NaN] component.  With a [NaN]
    translation the cached matrix never compares equal to the snapshot's, so
    the second of two cycles with the same snapshot writes the five transform
    properties again; with a [NaN] opacity it writes the opacity again. *)
Lemma unchanged_snapshot_counterexample :
  let props := mkDisplayProps true 0.5%float
                 (mkMatrix2D 1 0 0 1 PrimFloat.nan 0)%float in
  let props' := mkDisplayProps true PrimFloat.nan identity in
  trace (_handleDrawEnd props (final (_handleDrawEnd props fresh)))
  = [("msTransform", "matrix(1,0,0,1,0,0)");
     ("OTransform", "matrix(1,0,0,1,0,0)");
     ("WebkitTransform", "matrix(1,0,0,1,0,0)");
     ("transform", "matrix(1,0,0,1,0,0)");
     ("MozTransform", "matrix(1,0,0,1,0px,0px)")] ∧
  trace (_handleDrawEnd props' (final (_handleDrawEnd props' fresh)))
  = [("opacity", "0")].
Proof. split; vm_compute; reflexivity. Qed.

(** C9. In a cycle with an element bound and a visible snapshot the routine
    never reads the opacity of an absent cache: it completes normally (no
    [TypeError]) and leaves a cache; when the cache was absent at the start,
    the transform branch ran first (the transform was written) and created
    it, holding the snapshot's matrix. *)
Theorem opacity_step_has_cache props this o :
  htmlElement this = Some o → visible props = true →
  let out := _handleDrawEnd props this in
  completion out = inl tt ∧
  is_Some (_oldProps (final out)) ∧
  match _oldProps this with
  | Some _ => True
  | None => matrix <$> _oldProps (final out) = Some (matrix props) ∧
            ∃ v, ("transform", v) ∈ trace out
  end.
Proof.
  intros Ho Hv. cbv zeta.
  routine_cases this props; try congruence; repeat split; eauto;
    rewrite ?copy_eq; try done.
  all: eexists; find_write.
Qed.

Lemma opacity_step_has_cache_witness :
  let out := _handleDrawEnd (mkDisplayProps true 0.5%float identity) fresh in
  completion out = inl tt ∧
  is_Some (_oldProps (final out)) ∧
  matrix <$> _oldProps (final out) = Some identity ∧
  ∃ v, ("transform", v) ∈ trace out.
Proof.
  pose proof (opacity_step_has_cache
                (mkDisplayProps true 0.5%float identity) fresh
                fresh_element eq_refl eq_refl) as (H1 & H2 & H3 & H4).
  cbv zeta. split; [exact H1|]. split; [exact H2|]. split; [exact H3 | exact H4].
Defined.

(** C10. The opacity test compares the snapshot's opacity with the cached
    opacity exactly.  With a cache present, the opacity is written exactly
    when the two numbers differ as numbers, whatever their truncated values
    are; whenever the routine writes the opacity, the cache afterwards holds
    the snapshot's own opacity, not the truncated value written.  So there
    are consecutive snapshots, here with opacities 0.50002 and 0.50001 (less
    than 0.0001 apart), for which the second cycle writes the opacity although
    the string written, "0.5", is the one already there; a third cycle with
    the same opacity writes nothing. *)
Theorem opacity_compared_exactly :
  (∀ props this v,
     ("opacity", v) ∈ trace (_handleDrawEnd props this) →
     alpha <$> _oldProps (final (_handleDrawEnd props this)) = Some (alpha props) ∧
     v = Number_toString (to_precision 10000%float (alpha props))) ∧
  (∀ props this o old,
     htmlElement this = Some o → visible props = true → _oldProps this = Some old →
     ((∃ v, ("opacity", v) ∈ trace (_handleDrawEnd props this))
      ↔ PrimFloat.eqb (alpha old) (alpha props) = false)) ∧
  let first := _handleDrawEnd (mkDisplayProps true 0.50002%float identity) fresh in
  let second := _handleDrawEnd (mkDisplayProps true 0.50001%float identity) (final first) in
  let third := _handleDrawEnd (mkDisplayProps true 0.50001%float identity) (final second) in
  (PrimFloat.abs (0.50001 - 0.50002) <? 0.0001)%float = true ∧
  alpha <$> _oldProps (final first) = Some 0.50002%float ∧
  (htmlElement (final first) ≫= λ o, style o !! "opacity") = Some "0.5" ∧
  trace second = [("opacity", "0.5")] ∧
  alpha <$> _oldProps (final second) = Some 0.50001%float ∧
  trace third = [].
Proof.
  split; [|split].
  - intros props this v H. revert H.
    routine_cases this props; intros H; each_write H; try discriminate;
      injection H as Hv; by subst v.
  - intros props this o old Ho Hv Hc. revert Ho Hv Hc.
    routine_cases this props; try done; intros _ _ [= <-];
      unfold neq in Halpha;
      [ apply negb_true_iff in Halpha | apply negb_false_iff in Halpha
      | apply negb_true_iff in Halpha | apply negb_false_iff in Halpha
      | apply negb_true_iff in Halpha | apply negb_false_iff in Halpha
      | apply negb_true_iff in Halpha | apply negb_false_iff in Halpha ];
      (split; [intros [v H] | intros H]).
    all: try done; try congruence.
    all: try (eexists; find_write).
    all: each_write H; discriminate.
  - cbv zeta. repeat split; vm_compute; reflexivity.
Qed.

Lemma opacity_compared_exactly_witness :
  alpha <$> _oldProps (final (_handleDrawEnd
                                (mkDisplayProps true 0.50001%float identity) fresh))
  = Some 0.50001%float.
Proof.
  refine (proj1 (proj1 opacity_compared_exactly
                   (mkDisplayProps true 0.50001%float identity) fresh "0.5" _)).
  vm_compute. find_write.
Defined.

(** C1, within the 32-bit range and with the second example corrected. In
    every placement string the routine writes, each translation component [t]
    whose offset value [t + 0.5] truncates to a signed 32-bit integer is
    emitted as [t + 0.5] truncated toward zero, whatever the other component
    is; in particular 3.7 is emitted as 4 and -2.2 as -1. *)
Theorem translation_rounding props this k v :
  (k, v) ∈ trace (_handleDrawEnd props this) →
  let m := matrix props in
  let n := 10000%float in
  let fits t := int32 (truncate (t + 0.5)%float) in
  let text X Y u :=
    css_matrix (to_precision n (a m)) (to_precision n (b m))
      (to_precision n (c m)) (to_precision n (d m)) X Y u in
  (k ∈ transform_properties →
   (fits (tx m) → v = text (spec_round (tx m)) (to_pixel (ty m)) "") ∧
   (fits (ty m) → v = text (to_pixel (tx m)) (spec_round (ty m)) "") ∧
   (fits (tx m) → fits (ty m) →
    v = text (spec_round (tx m)) (spec_round (ty m)) "")) ∧
  (k = "MozTransform" →
   (fits (tx m) → v = text (spec_round (tx m)) (to_pixel (ty m)) "px") ∧
   (fits (ty m) → v = text (to_pixel (tx m)) (spec_round (ty m)) "px") ∧
   (fits (tx m) → fits (ty m) →
    v = text (spec_round (tx m)) (spec_round (ty m)) "px")) ∧
  Number_toString (to_pixel 3.7%float) = "4" ∧
  Number_toString (to_pixel (-2.2)%float) = "-1".
Proof.
  intros H. cbv zeta.
  assert (Hcode :
    (k ∈ transform_properties → v = placement "" (matrix props)) ∧
    (k = "MozTransform" → v = placement "px" (matrix props))).
  { split; intros Hk; revert H; unfold placement, css_matrix;
      routine_cases this props; intros H; each_write H;
      injection H as -> ->; try done;
      by repeat (apply elem_of_cons in Hk as [Hk | Hk]; [discriminate|]);
         apply not_elem_of_nil in Hk. }
  destruct Hcode as [Ht Hm].
  split; [|split; [|split; vm_compute; reflexivity]]; intros Hk;
    [rewrite (Ht Hk) | rewrite (Hm Hk)]; unfold placement;
    (split; [|split]); intros; rewrite <- ?to_pixel_spec by done; reflexivity.
Qed.

Lemma translation_rounding_witness :
  let props := mkDisplayProps true 1%float
                 (mkMatrix2D 1 0 0 1 3.7 3000000000)%float in
  ("transform", "matrix(1,0,0,1,4,-1294967296)") ∈ trace (_handleDrawEnd props fresh) ∧
  "matrix(1,0,0,1,4,-1294967296)"
  = css_matrix 1%float 0%float 0%float 1%float
      (spec_round 3.7%float) (to_pixel 3000000000%float) "".
Proof.
  cbv zeta.
  assert (H : ("transform", "matrix(1,0,0,1,4,-1294967296)")
              ∈ trace (_handleDrawEnd
                         (mkDisplayProps true 1%float
                            (mkMatrix2D 1 0 0 1 3.7 3000000000)%float) fresh))
    by (vm_compute; find_write).
  split; [exact H|].
  refine (proj1 (proj1 (translation_rounding _ fresh _ _ H) _) _).
  - unfold transform_properties. find_write.
  - by vm_compute.
Defined.

(** C1, as stated, fails on the spec's own example: translation -2.2 is
    emitted as -1, not -2.  It also fails beyond the 32-bit range: translation
    3000000000, whose offset value truncates to 3000000000, is emitted as
    -1294967296. *)
Lemma translation_rounding_counterexample :
  trace (_handleDrawEnd
           (mkDisplayProps true 1%float (mkMatrix2D 1 0 0 1 3.7 (-2.2))%float) fresh)
    !! 4%nat = Some ("transform", "matrix(1,0,0,1,4,-1)") ∧
  trace (_handleDrawEnd
           (mkDisplayProps true 1%float (mkMatrix2D 1 0 0 1 3000000000 0)%float) fresh)
    !! 4%nat = Some ("transform", "matrix(1,0,0,1,-1294967296,0)") ∧
  truncate (3000000000 + 0.5)%float = 3000000000.
Proof. repeat split; vm_compute; reflexivity. Qed.

(** C4, within the 32-bit range. In every placement string and opacity the
    routine writes, each linear matrix component or opacity [x] for which
    [x * 10000] truncates to a signed 32-bit integer is emitted as [x * 10000]
    truncated toward zero and divided by 10000, whatever the other components
    are, not rounded to nearest: 0.99999 is emitted as 0.9999, -0.99999 as
    -0.9999 and 0.12345678 as 0.1234. *)
Theorem linear_components_truncated props this k v :
  (k, v) ∈ trace (_handleDrawEnd props this) →
  let m := matrix props in
  let fits x := int32 (truncate (x * 10000)%float) in
  let code x := to_precision 10000%float x in
  let text A B C D u := css_matrix A B C D (to_pixel (tx m)) (to_pixel (ty m)) u in
  (k ∈ transform_properties →
   (fits (a m) → v = text (spec_trunc4 (a m)) (code (b m)) (code (c m)) (code (d m)) "") ∧
   (fits (b m) → v = text (code (a m)) (spec_trunc4 (b m)) (code (c m)) (code (d m)) "") ∧
   (fits (c m) → v = text (code (a m)) (code (b m)) (spec_trunc4 (c m)) (code (d m)) "") ∧
   (fits (d m) → v = text (code (a m)) (code (b m)) (code (c m)) (spec_trunc4 (d m)) "") ∧
   (fits (a m) → fits (b m) → fits (c m) → fits (d m) →
    v = text (spec_trunc4 (a m)) (spec_trunc4 (b m))
          (spec_trunc4 (c m)) (spec_trunc4 (d m)) "")) ∧
  (k = "MozTransform" →
   (fits (a m) → v = text (spec_trunc4 (a m)) (code (b m)) (code (c m)) (code (d m)) "px") ∧
   (fits (b m) → v = text (code (a m)) (spec_trunc4 (b m)) (code (c m)) (code (d m)) "px") ∧
   (fits (c m) → v = text (code (a m)) (code (b m)) (spec_trunc4 (c m)) (code (d m)) "px") ∧
   (fits (d m) → v = text (code (a m)) (code (b m)) (code (c m)) (spec_trunc4 (d m)) "px") ∧
   (fits (a m) → fits (b m) → fits (c m) → fits (d m) →
    v = text (spec_trunc4 (a m)) (spec_trunc4 (b m))
          (spec_trunc4 (c m)) (spec_trunc4 (d m)) "px")) ∧
  (k = "opacity" → fits (alpha props) →
   v = Number_toString (spec_trunc4 (alpha props))) ∧
  Number_toString (to_precision 10000%float 0.99999%float) = "0.9999" ∧
  Number_toString (to_precision 10000%float (-0.99999)%float) = "-0.9999" ∧
  Number_toString (to_precision 10000%float 0.12345678%float) = "0.1234".
Proof.
  intros H. cbv zeta.
  assert (Hcode :
    (k ∈ transform_properties → v = placement "" (matrix props)) ∧
    (k = "MozTransform" → v = placement "px" (matrix props)) ∧
    (k = "opacity" → v = opacity_string (alpha props))).
  { repeat split; intros Hk; revert H; unfold placement, css_matrix, opacity_string;
      routine_cases this props; intros H; each_write H;
      injection H as -> ->; try done;
      by repeat (apply elem_of_cons in Hk as [Hk | Hk]; [discriminate|]);
         apply not_elem_of_nil in Hk. }
  destruct Hcode as (Ht & Hm & Ho).
  split; [|split; [|split; [|repeat split; vm_compute; reflexivity]]]; intros Hk.
  - rewrite (Ht Hk). unfold placement.
    repeat split; intros; rewrite <- ?to_precision_spec by done; reflexivity.
  - rewrite (Hm Hk). unfold placement.
    repeat split; intros; rewrite <- ?to_precision_spec by done; reflexivity.
  - intros Hal. rewrite (Ho Hk). unfold opacity_string.
    by rewrite <- to_precision_spec.
Qed.

Lemma linear_components_truncated_witness :
  let props := mkDisplayProps true 1%float
                 (mkMatrix2D 0.99999 0 0 300000 0 0)%float in
  ("transform", "matrix(0.9999,0,0,-129496.7296,0,0)")
    ∈ trace (_handleDrawEnd props fresh) ∧
  "matrix(0.9999,0,0,-129496.7296,0,0)"
  = css_matrix (spec_trunc4 0.99999%float) (to_precision 10000%float 0%float)
      (to_precision 10000%float 0%float) (to_precision 10000%float 300000%float)
      (to_pixel 0%float) (to_pixel 0%float) "".
Proof.
  cbv zeta.
  assert (H : ("transform", "matrix(0.9999,0,0,-129496.7296,0,0)")
              ∈ trace (_handleDrawEnd
                         (mkDisplayProps true 1%float
                            (mkMatrix2D 0.99999 0 0 300000 0 0)%float) fresh))
    by (vm_compute; find_write).
  split; [exact H|].
  refine (proj1 (proj1 (linear_components_truncated _ fresh _ _ H) _) _).
  - unfold transform_properties. find_write.
  - by vm_compute.
Defined.

(** C4, as stated, fails beyond the 32-bit range: the scale 300000, which
    truncated to four decimals is 300000, is emitted as -129496.7296. *)
Lemma linear_components_counterexample :
  trace (_handleDrawEnd
           (mkDisplayProps true 1%float (mkMatrix2D 300000 0 0 1 0 0)%float) fresh)
    !! 4%nat = Some ("transform", "matrix(-129496.7296,0,0,1,0,0)") ∧
  Number_toString (spec_trunc4 300000%float) = "300000".
Proof. repeat split; vm_compute; reflexivity. Qed.

(* ===================================================================== *)
(** ** Ticks and the draw-end signal *)
(* ===================================================================== *)

Section Ticks.
Import Stage.
Variable self : NodeId.

Lemma on_listeners st :
  listeners_of "drawend" (on "drawend" self true st)
  = listeners_of "drawend" st ++ [mkListener self true].
Proof. unfold on, listeners_of at 1. simpl. by rewrite lookup_insert_eq. Qed.

(** [_tick] does nothing but call [on], whatever the stage already holds. *)
Lemma ticks_on st n :
  Nat.iter n (_tick self) (Some st) = Some (Nat.iter n (on "drawend" self true) st).
Proof. induction n as [|n IH]; [done|]. simpl. by rewrite IH. Qed.

Lemma ticks_listeners st n :
  listeners_of "drawend" (Nat.iter n (on "drawend" self true) st)
  = listeners_of "drawend" st ++ replicate n (mkListener self true).
Proof.
  induction n as [|n IH]; simpl.
  - by rewrite app_nil_r.
  - rewrite on_listeners, IH, <- app_assoc. f_equal.
    symmetry. apply replicate_cons_app.
Qed.

Lemma dispatch_listeners st :
  listeners_of "drawend" (dispatch "drawend" st).2
  = filter (λ l, once l = false) (listeners_of "drawend" st).
Proof. unfold dispatch, listeners_of at 1. simpl. by rewrite lookup_insert_eq. Qed.

Lemma filter_replicate_self n :
  filter (λ x, x = self) (replicate n self) = replicate n self.
Proof.
  induction n as [|n IH]; [done|]. simpl.
  rewrite filter_cons. case_decide; [by rewrite IH | done].
Qed.

Lemma filter_replicate_once n :
  filter (λ l, once l = false) (replicate n (mkListener self true)) = [].
Proof. induction n as [|n IH]; [done|]. simpl. by rewrite filter_cons. Qed.

End Ticks.

(** C5, with the subscriptions counted. Every tick of a node on a stage adds a
    run-once listener for the node's synchronization handler to the stage's
    draw-end signal, without looking at the listeners already there: after
    [n] ticks the next signal runs the handler [n] times more than it would
    have without them (exactly once for one tick on a stage where the node
    had no listener), and removes those listeners; a node on no stage
    subscribes to nothing. *)
Theorem tick_subscribes_each_time (self : Stage.NodeId) (st : Stage.Stage) (n : nat) :
  ∃ st',
    (Nat.iter n (_tick self) (Some st) = Some st') ∧
    (Stage.subscribers "drawend" st'
     = Stage.subscribers "drawend" st ++ replicate n self) ∧
    (length (filter (λ x, x = self) (Stage.dispatch "drawend" st').1)
     = (length (filter (λ x, x = self) (Stage.subscribers "drawend" st)) + n)%nat) ∧
    (Stage.subscribers "drawend" (Stage.dispatch "drawend" st').2
     = Stage.subscribers "drawend" (Stage.dispatch "drawend" st).2) ∧
    (Nat.iter n (_tick self) None = None).
Proof.
  exists (Nat.iter n (Stage.on "drawend" self true) st).
  assert (Hsub : Stage.subscribers "drawend"
                   (Nat.iter n (Stage.on "drawend" self true) st)
                 = Stage.subscribers "drawend" st ++ replicate n self).
  { unfold Stage.subscribers. rewrite ticks_listeners, fmap_app.
    by rewrite fmap_replicate. }
  split; [apply ticks_on|]. split; [exact Hsub|]. split; [|split].
  - simpl. rewrite Hsub, filter_app, length_app, filter_replicate_self.
    by rewrite length_replicate.
  - unfold Stage.subscribers. rewrite !dispatch_listeners, ticks_listeners.
    by rewrite filter_app, filter_replicate_once, app_nil_r.
  - clear. induction n as [|n IH]; [done|]. simpl in *. by rewrite IH.
Qed.

(** C5, as stated, fails when several ticks precede one signal: after three
    ticks of node 7 on a stage without listeners, the signal runs the node's
    handler three times. *)
Lemma tick_subscribes_counterexample :
  fst <$> (Stage.dispatch "drawend" <$> Nat.iter 3 (_tick 7%nat) (Some empty_stage))
  = Some [7%nat; 7%nat; 7%nat].
Proof. vm_compute. reflexivity. Qed.

(* ===================================================================== *)
(** ** Further properties: numbers *)
(* ===================================================================== *)

(** [NaN] differs from every number. *)
Lemma neq_nan x : neq PrimFloat.nan x = true.
Proof.
  unfold neq. rewrite FloatAxioms.eqb_spec.
  change (Prim2SF PrimFloat.nan) with S754_nan. reflexivity.
Qed.

(** Two numbers equal under [===] are the same number, or are both zeros. *)
Lemma strict_eq_cases x y :
  strict_eq x y = true →
  x = y ∨ ((x = 0%float ∨ x = (-0)%float) ∧ (y = 0%float ∨ y = (-0)%float)).
Proof.
  unfold strict_eq. rewrite FloatAxioms.eqb_spec. unfold SFeqb.
  pose proof (FloatAxioms.SF2Prim_Prim2SF x) as Hx.
  pose proof (FloatAxioms.SF2Prim_Prim2SF y) as Hy.
  destruct (Prim2SF x) as [sx | sx | | sx mx ex] eqn:Ex,
           (Prim2SF y) as [sy | sy | | sy my ey] eqn:Ey; simpl;
    try discriminate; try (destruct sx; discriminate);
    try (destruct sy; discriminate).
  - intros _. right. simpl in Hx, Hy. split.
    + destruct sx; [right | left]; done.
    + destruct sy; [right | left]; done.
  - intros H. left. apply FloatAxioms.Prim2SF_inj. rewrite Ex, Ey.
    destruct sx, sy; done.
  - intros H. left. apply FloatAxioms.Prim2SF_inj. rewrite Ex, Ey.
    assert (Hs : sx = sy) by (destruct sx, sy; done). subst sy.
    assert (He : ex = ey).
    { destruct sx; destruct (Z.compare_spec ex ey); done. }
    subst ey. rewrite Z.compare_refl in H.
    change (Pos.compare_cont Eq mx my) with (Pos.compare mx my) in H.
    destruct (Pos.compare_spec mx my); [by subst | destruct sx; done ..].
Qed.

(** Numbers equal under [===] are emitted as the same strings. *)
Lemma strict_eq_emitted x y :
  strict_eq x y = true →
  to_precision 10000%float x = to_precision 10000%float y ∧ to_pixel x = to_pixel y.
Proof.
  intros [-> | [[-> | ->] [-> | ->]]]%strict_eq_cases; split; reflexivity.
Qed.

Lemma placement_equal m1 m2 u :
  equals m1 m2 = true → placement u m1 = placement u m2.
Proof.
  unfold equals. rewrite !andb_true_iff.
  intros [[[[[Hx Hy] Ha] Hb] Hc] Hd].
  apply strict_eq_emitted in Hx as [_ Hx], Hy as [_ Hy], Ha as [Ha _],
    Hb as [Hb _], Hc as [Hc _], Hd as [Hd _].
  unfold placement. by rewrite Hx, Hy, Ha, Hb, Hc, Hd.
Qed.

Lemma opacity_equal x y : neq x y = false → opacity_string x = opacity_string y.
Proof.
  unfold neq. intros H%negb_false_iff.
  apply strict_eq_emitted in H as [H _]. unfold opacity_string. by rewrite H.
Qed.

(* ===================================================================== *)
(** ** Further properties: the routine *)
(* ===================================================================== *)

(** Reads a property through the assignments made on top of a style. *)
Ltac lookup_style :=
  repeat first [ rewrite lookup_insert_eq | rewrite lookup_insert_ne by done ];
  try done.

Section MoreRoutine.
Variables (props : DisplayProps) (this : DOMElement).

Lemma handleDrawEnd_bound :
  is_Some (htmlElement this) →
  is_Some (htmlElement (final (_handleDrawEnd props this))).
Proof.
  intros [o Ho]. revert Ho.
  routine_cases this props; intros; rewrite ?Hbound; try done; by eexists.
Qed.

Lemma handleDrawEnd_coherent :
  coherent this → coherent (final (_handleDrawEnd props this)).
Proof.
  unfold coherent.
  routine_cases this props; rewrite ?Hbound, ?Hcache; simpl; try done.
  all: try (destruct (_oldProps this) as [op|] eqn:Hcache; [|done]).
  all: try (rewrite neq_nan in Halpha; discriminate).
  all: intros Hco; rewrite ?copy_eq.
  all: try destruct Hco as (Ht & Hm & Ho).
  all: split;
    [ intros k Hk; unfold transform_properties in Hk; each_write Hk; subst k;
      lookup_style; apply Ht; unfold transform_properties; find_write
    | split; lookup_style ].
Qed.

Lemma handleDrawEnd_shows :
  coherent this → is_Some (htmlElement this) → visible props = true →
  shows props (final (_handleDrawEnd props this)).
Proof.
  unfold coherent, shows. intros Hco [o' Ho'] Hv. revert Hco.
  routine_cases this props; try congruence; intros Hco.
  all: try (rewrite neq_nan in Halpha; discriminate).
  all: eexists; split; [reflexivity|]; simpl; rewrite ?copy_eq.
  all: try destruct Hco as (Ht & Hm & Ho).
  all: try rewrite <- (placement_equal _ _ "" Hsame).
  all: try rewrite <- (placement_equal _ _ "px" Hsame).
  all: try rewrite <- (opacity_equal _ _ Halpha).
  all: split; [lookup_style; by apply dec_stable|].
  all: split;
    [ intros k Hk; unfold transform_properties in Hk; each_write Hk; subst k;
      lookup_style; apply Ht; unfold transform_properties; find_write
    | split; lookup_style ].
Qed.
End MoreRoutine.

Lemma cycles_bound ps this :
  is_Some (htmlElement this) → is_Some (htmlElement (cycles ps this)).
Proof.
  revert this. induction ps as [|p ps IH]; intros this H; [done|].
  apply IH. by apply handleDrawEnd_bound.
Qed.

Lemma cycles_coherent ps this : coherent this → coherent (cycles ps this).
Proof.
  revert this. induction ps as [|p ps IH]; intros this H; [done|].
  apply IH. by apply handleDrawEnd_coherent.
Qed.

Lemma constructor_coherent document arg : coherent (final (constructor document arg)).
Proof.
  unfold constructor, coherent.
  destruct arg as [id | e]; [destruct (document !! id)|]; done.
Qed.

Lemma constructor_bound document arg :
  completion (constructor document arg) = inl tt →
  is_Some (htmlElement (final (constructor document arg))).
Proof.
  unfold constructor.
  destruct arg as [id | e]; [destruct (document !! id)|]; by eauto.
Qed.

(** After a cycle the element's visibility is the snapshot's. *)
Lemma handleDrawEnd_visibility props this :
  is_Some (htmlElement this) →
  ∃ o, htmlElement (final (_handleDrawEnd props this)) = Some o ∧
       style o !! "visibility" = Some (if visible props then "visible" else "hidden").
Proof.
  intros [o' Ho']. revert Ho'.
  routine_cases this props; try done; intros _.
  all: eexists; split; [reflexivity|]; simpl; lookup_style; by apply dec_stable.
Qed.

(** A cycle on an element whose visibility is not the snapshot's starts with
    the visibility write. *)
Lemma handleDrawEnd_head props this o :
  htmlElement this = Some o →
  style o !! "visibility" ≠ Some (if visible props then "visible" else "hidden") →
  head (trace (_handleDrawEnd props this))
  = Some ("visibility", if visible props then "visible" else "hidden").
Proof.
  intros Ho. revert Ho.
  routine_cases this props; try done; intros [= ->] Hne; done.
Qed.

(* ===================================================================== *)
(** ** Further properties: statements *)
(* ===================================================================== *)

(** X1. The constructor, given an element, completes normally and leaves a
    node bound to it, not mouse enabled and without cache; on the element's
    style, [position] is "absolute", the five transform origins are "0% 0%"
    and every other property is as it was. *)
Theorem constructor_positions_element document e :
  let out := constructor document (inr e) in
  completion out = inl tt ∧
  mouseEnabled (final out) = false ∧
  _oldProps (final out) = None ∧
  isVisible (final out) = true ∧
  ∃ o, htmlElement (final out) = Some o ∧
       style o !! "position" = Some "absolute" ∧
       (∀ k, k ∈ origin_properties → style o !! k = Some "0% 0%") ∧
       (∀ k, k ∉ "position" :: origin_properties → style o !! k = style e !! k).
Proof.
  cbv zeta. unfold constructor. simpl. repeat split.
  eexists. split; [reflexivity|]. simpl. split; [lookup_style|]. split.
  - intros k Hk. unfold origin_properties in Hk. each_write Hk; subst k; lookup_style.
  - intros k Hk. unfold origin_properties in Hk.
    rewrite !not_elem_of_cons in Hk. destruct Hk as (? & ? & ? & ? & ? & ? & _).
    by rewrite !lookup_insert_ne by done.
Qed.

(** X2. Constructing a second node on an element a constructor has already
    prepared leaves the element's style as it is. *)
Theorem constructor_twice_same_style document e o :
  htmlElement (final (constructor document (inr e))) = Some o →
  htmlElement (final (constructor document (inr o))) = Some o.
Proof.
  unfold constructor. simpl. intros [= <-]. simpl. do 2 f_equal.
  apply map_eq. intros k.
  destruct (decide (k ∈ "position" :: origin_properties)) as [Hk | Hk].
  - unfold origin_properties in Hk. each_write Hk; subst k; lookup_style.
  - unfold origin_properties in Hk.
    rewrite !not_elem_of_cons in Hk. destruct Hk as (? & ? & ? & ? & ? & ? & _).
    by rewrite !lookup_insert_ne by done.
Qed.

Lemma constructor_twice_same_style_witness :
  htmlElement (final (constructor ∅ (inr fresh_element))) = Some fresh_element.
Proof.
  apply (constructor_twice_same_style ∅ (mkHTMLElement ∅)). reflexivity.
Defined.

(** X3. A synchronization cycle never rebinds the node, never changes
    [mouseEnabled] or the answer of [isVisible], and leaves every style
    property it does not assign (any property outside visibility, the five
    transform properties and opacity) as it was. *)
Theorem handleDrawEnd_frame props this k :
  k ∉ write_order →
  let out := _handleDrawEnd props this in
  isVisible (final out) = isVisible this ∧
  mouseEnabled (final out) = mouseEnabled this ∧
  (htmlElement (final out) ≫= λ o, style o !! k)
  = (htmlElement this ≫= λ o, style o !! k).
Proof.
  intros Hk. unfold write_order in Hk. rewrite !not_elem_of_cons in Hk.
  destruct Hk as (? & ? & ? & ? & ? & ? & ? & _). cbv zeta. unfold isVisible.
  routine_cases this props; rewrite ?Hbound; simpl; repeat split;
    by rewrite ?lookup_insert_ne by done.
Qed.

Lemma handleDrawEnd_frame_witness :
  let out := _handleDrawEnd (mkDisplayProps true 0.5%float identity) fresh in
  isVisible (final out) = true ∧
  mouseEnabled (final out) = false ∧
  (htmlElement (final out) ≫= λ o, style o !! "position") = Some "absolute".
Proof.
  cbv zeta.
  refine (handleDrawEnd_frame (mkDisplayProps true 0.5%float identity) fresh
            "position" _).
  unfold write_order. rewrite !not_elem_of_cons. repeat split; try done.
  apply not_elem_of_nil.
Defined.

(** X4. In one cycle the routine assigns each style property at most once
    and in a fixed order: visibility, msTransform, OTransform,
    WebkitTransform, transform, MozTransform, opacity; so it makes at most
    seven writes. *)
Theorem handleDrawEnd_write_order props this :
  (trace (_handleDrawEnd props this)).*1 `sublist_of` write_order.
Proof.
  unfold write_order.
  routine_cases this props;
    repeat first [ apply sublist_nil | apply sublist_skip | apply sublist_cons ].
Qed.

(** X5. With an element bound, a visible snapshot and a cache present, the
    transform is written exactly when the cached matrix does not equal the
    snapshot's.  When it is written, all five transform properties are, with
    the snapshot's placement string, and the cache takes the snapshot's
    matrix; when it is not, no transform property is written and the cached
    matrix stays. *)
Theorem transform_written_iff_changed props this o old :
  htmlElement this = Some o → visible props = true → _oldProps this = Some old →
  let out := _handleDrawEnd props this in
  if equals (matrix old) (matrix props)
  then (∀ k v, (k, v) ∈ trace out → k = "visibility" ∨ k = "opacity") ∧
       matrix <$> _oldProps (final out) = Some (matrix old)
  else (∀ k, k ∈ transform_properties →
             (k, placement "" (matrix props)) ∈ trace out) ∧
       ("MozTransform", placement "px" (matrix props)) ∈ trace out ∧
       matrix <$> _oldProps (final out) = Some (matrix props).
Proof.
  intros Ho Hv Hc. cbv zeta. revert Ho Hv Hc.
  routine_cases this props; try done; intros _ _ [= <-]; rewrite Hsame.
  all: rewrite ?copy_eq.
  all: match goal with
       | |- (∀ k v, _) ∧ _ =>
           split; [intros k v H; each_write H; injection H as -> ->; by eauto | done]
       | |- _ =>
           split; [|split; [find_write | done]];
           intros k Hk; unfold transform_properties in Hk; each_write Hk;
           subst k; find_write
       end.
Qed.

Lemma transform_written_iff_changed_witness :
  let props := mkDisplayProps true 0.5%float (mkMatrix2D 1 0 0 1 3.7 (-2.2))%float in
  let this := final (_handleDrawEnd (mkDisplayProps true 0.5%float identity) fresh) in
  ("MozTransform", "matrix(1,0,0,1,4px,-1px)") ∈ trace (_handleDrawEnd props this) ∧
  matrix <$> _oldProps (final (_handleDrawEnd props this)) = Some (matrix props).
Proof.
  cbv zeta.
  pose proof (transform_written_iff_changed
                (mkDisplayProps true 0.5%float (mkMatrix2D 1 0 0 1 3.7 (-2.2))%float)
                (final (_handleDrawEnd (mkDisplayProps true 0.5%float identity) fresh))
                _ _ eq_refl eq_refl eq_refl) as H.
  exact (proj2 H).
Defined.

(** X6. With an element bound, a visible snapshot and a cache present, the
    opacity is written exactly when the cached opacity differs from the
    snapshot's under [!=]; when it is not written the cached opacity stays the
    number it was. *)
Theorem opacity_written_iff_changed props this o old :
  htmlElement this = Some o → visible props = true → _oldProps this = Some old →
  let out := _handleDrawEnd props this in
  if neq (alpha old) (alpha props)
  then ("opacity", opacity_string (alpha props)) ∈ trace out ∧
       alpha <$> _oldProps (final out) = Some (alpha props)
  else (∀ v, ("opacity", v) ∉ trace out) ∧
       alpha <$> _oldProps (final out) = Some (alpha old).
Proof.
  intros Ho Hv Hc. cbv zeta. revert Ho Hv Hc.
  routine_cases this props; try done; intros _ _ [= <-]; rewrite Halpha.
  all: match goal with
       | |- (∀ v, _) ∧ _ =>
           split; [intros v H; each_write H; discriminate | done]
       | |- _ => split; [find_write | done]
       end.
Qed.

Lemma opacity_written_iff_changed_witness :
  let props := mkDisplayProps true 0.25%float identity in
  let this := final (_handleDrawEnd (mkDisplayProps true 0.5%float identity) fresh) in
  ("opacity", "0.25") ∈ trace (_handleDrawEnd props this) ∧
  alpha <$> _oldProps (final (_handleDrawEnd props this)) = Some 0.25%float.
Proof.
  cbv zeta.
  exact (opacity_written_iff_changed
           (mkDisplayProps true 0.25%float identity)
           (final (_handleDrawEnd (mkDisplayProps true 0.5%float identity) fresh))
           _ _ eq_refl eq_refl eq_refl).
Defined.

(** X7. On a node without cache (as the constructor leaves it), a cycle with
    an element bound and a visible snapshot writes the five transform
    properties and the opacity whatever the snapshot's numbers are, [NaN]
    included, and leaves a cache that holds [visible = true] and the
    snapshot's own opacity and matrix. *)
Theorem first_visible_cycle_writes_all props this o :
  htmlElement this = Some o → visible props = true → _oldProps this = None →
  let out := _handleDrawEnd props this in
  (∀ k, k ∈ transform_properties → (k, placement "" (matrix props)) ∈ trace out) ∧
  ("MozTransform", placement "px" (matrix props)) ∈ trace out ∧
  ("opacity", opacity_string (alpha props)) ∈ trace out ∧
  _oldProps (final out) = Some (mkDisplayProps true (alpha props) (matrix props)).
Proof.
  intros Ho Hv Hc. cbv zeta. revert Ho Hv Hc.
  routine_cases this props; try done; intros _ _ _.
  all: try (rewrite neq_nan in Halpha; discriminate).
  all: rewrite copy_eq; split; [|split; [find_write | split; [find_write | done]]].
  all: intros k Hk; unfold transform_properties in Hk; each_write Hk; subst k;
    find_write.
Qed.

Lemma first_visible_cycle_writes_all_witness :
  let props := mkDisplayProps true PrimFloat.nan identity in
  ("opacity", "0") ∈ trace (_handleDrawEnd props fresh) ∧
  _oldProps (final (_handleDrawEnd props fresh)) = Some props.
Proof.
  cbv zeta.
  pose proof (first_visible_cycle_writes_all
                (mkDisplayProps true PrimFloat.nan identity) fresh
                fresh_element eq_refl eq_refl eq_refl) as (_ & _ & H & H').
  split; [exact H | exact H'].
Defined.

(** X8. After construction and any run of synchronization cycles the cache,
    when present, mirrors the element: the element's transform properties and
    opacity hold the strings of the cached matrix and opacity. *)
Theorem cache_mirrors_element document arg ps :
  coherent (cycles ps (final (constructor document arg))).
Proof. apply cycles_coherent, constructor_coherent. Qed.

(** X9. After construction and any run of cycles, a cycle with a visible
    snapshot leaves the element displaying that snapshot: visibility
    "visible", the transform properties at the snapshot's placement string and
    the opacity at the snapshot's opacity string, also when change detection
    skipped a write. *)
Theorem visible_cycle_shows_snapshot document arg ps props :
  completion (constructor document arg) = inl tt →
  visible props = true →
  shows props (final (_handleDrawEnd props (cycles ps (final (constructor document arg))))).
Proof.
  intros Hc Hv. apply handleDrawEnd_shows; [|apply cycles_bound|done].
  - apply cycles_coherent, constructor_coherent.
  - by apply constructor_bound.
Qed.

Lemma visible_cycle_shows_snapshot_witness :
  shows (mkDisplayProps true 0.5%float (mkMatrix2D 1 0 0 1 (-0) 0)%float)
    (final (_handleDrawEnd
              (mkDisplayProps true 0.5%float (mkMatrix2D 1 0 0 1 (-0) 0)%float)
              (cycles [mkDisplayProps true 0.5%float identity;
                       mkDisplayProps false 1%float identity]
                 (final (constructor ∅ (inr (mkHTMLElement ∅))))))).
Proof. apply visible_cycle_shows_snapshot; reflexivity. Defined.

(** X10. Two numbers that compare equal under [===], such as [-0] and [0],
    are emitted as the same strings, both as a linear component or opacity and
    as a translation; so a write skipped on equality leaves no stale string. *)
Theorem equal_numbers_same_strings x y :
  strict_eq x y = true →
  Number_toString (to_precision 10000%float x)
  = Number_toString (to_precision 10000%float y) ∧
  Number_toString (to_pixel x) = Number_toString (to_pixel y).
Proof. intros [H1 H2]%strict_eq_emitted. by rewrite H1, H2. Qed.

Lemma equal_numbers_same_strings_witness :
  Number_toString (to_precision 10000%float (-0)%float)
  = Number_toString (to_precision 10000%float 0%float) ∧
  Number_toString (to_pixel (-0)%float) = Number_toString (to_pixel 0%float).
Proof. apply equal_numbers_same_strings. reflexivity. Defined.

(** X11. Change detection looks at the cache only, never at the element: when
    the cache equals a visible snapshot and the node is rebound to another
    element, the next cycle writes at most the visibility, so the new element
    receives neither the transform nor the opacity. *)
Theorem rebound_element_not_updated props this old e :
  visible props = true → _oldProps this = Some old →
  equals (matrix old) (matrix props) = true →
  neq (alpha old) (alpha props) = false →
  trace (_handleDrawEnd props (rebind (Some e) this))
  = if bool_decide (style e !! "visibility" = Some "visible")
    then [] else [("visibility", "visible")].
Proof.
  intros Hv Hc Hm Ha. unfold _handleDrawEnd, rebind. simpl.
  rewrite Hv, Hc. simpl. rewrite Hm. simpl. rewrite Ha.
  destruct (decide (style e !! "visibility" = Some "visible")) as [H | H].
  - rewrite bool_decide_eq_false_2 by (intros H'; by apply H').
    by rewrite (bool_decide_eq_true_2 _ H).
  - by rewrite (bool_decide_eq_true_2 _ H), (bool_decide_eq_false_2 _ H).
Qed.

Lemma rebound_element_not_updated_witness :
  let props := mkDisplayProps true 0.5%float (mkMatrix2D 2 0 0 2 10 20)%float in
  trace (_handleDrawEnd props
           (rebind (Some (mkHTMLElement ∅)) (final (_handleDrawEnd props fresh))))
  = [("visibility", "visible")].
Proof.
  cbv zeta.
  exact (rebound_element_not_updated
           (mkDisplayProps true 0.5%float (mkMatrix2D 2 0 0 2 10 20)%float)
           (final (_handleDrawEnd
                     (mkDisplayProps true 0.5%float (mkMatrix2D 2 0 0 2 10 20)%float)
                     fresh))
           _ (mkHTMLElement ∅) eq_refl eq_refl eq_refl eq_refl).
Defined.

(** X12. When the snapshot's visibility changes from one cycle to the next,
    the second cycle begins by writing the new visibility. *)
Theorem visibility_change_written_first p1 p2 this :
  is_Some (htmlElement this) → visible p1 ≠ visible p2 →
  head (trace (_handleDrawEnd p2 (final (_handleDrawEnd p1 this))))
  = Some ("visibility", if visible p2 then "visible" else "hidden").
Proof.
  intros Hb Hne.
  destruct (handleDrawEnd_visibility p1 this Hb) as (o & Ho & Hvis).
  apply (handleDrawEnd_head p2 _ o Ho). rewrite Hvis.
  destruct (visible p1), (visible p2); done.
Qed.

Lemma visibility_change_written_first_witness :
  head (trace (_handleDrawEnd (mkDisplayProps true 0.5%float identity)
                 (final (_handleDrawEnd (mkDisplayProps false 0.5%float identity) fresh))))
  = Some ("visibility", "visible").
Proof.
  apply (visibility_change_written_first
           (mkDisplayProps false 0.5%float identity)
           (mkDisplayProps true 0.5%float identity) fresh).
  - by exists fresh_element.
  - simpl. discriminate.
Defined.

(** X13. Once created, the cache is never reset: after any run of cycles,
    with any snapshots, a node that had a cache still has one. *)
Theorem cache_never_discarded ps this :
  is_Some (_oldProps this) → is_Some (_oldProps (cycles ps this)).
Proof.
  revert this. induction ps as [|p ps IH]; intros this H; [done|].
  apply IH. destruct H as [old Hold]. revert Hold.
  routine_cases this p; rewrite ?Hcache; intros; try done; by eexists.
Qed.

Lemma cache_never_discarded_witness :
  is_Some (_oldProps
             (cycles [mkDisplayProps false 1%float identity;
                      mkDisplayProps true PrimFloat.nan identity]
                (final (_handleDrawEnd (mkDisplayProps true 0.5%float identity) fresh)))).
Proof. apply cache_never_discarded. by eexists. Defined.

(** X14. Every number in a string the routine writes is bounded by the
    signed 32-bit range, whatever the snapshot ([NaN] and infinities
    included): each translation in a placement string is an integer of that
    range, and each linear component, like the opacity written, is such an
    integer divided by 10000. *)
Theorem emitted_numbers_are_int32 props this k v :
  (k, v) ∈ trace (_handleDrawEnd props this) →
  (k ∈ transform_properties →
   ∃ za zb zc zd zx zy,
     int32 za ∧ int32 zb ∧ int32 zc ∧ int32 zd ∧ int32 zx ∧ int32 zy ∧
     v = css_matrix (of_Z za / 10000)%float (of_Z zb / 10000)%float
           (of_Z zc / 10000)%float (of_Z zd / 10000)%float
           (of_Z zx) (of_Z zy) "") ∧
  (k = "MozTransform" →
   ∃ za zb zc zd zx zy,
     int32 za ∧ int32 zb ∧ int32 zc ∧ int32 zd ∧ int32 zx ∧ int32 zy ∧
     v = css_matrix (of_Z za / 10000)%float (of_Z zb / 10000)%float
           (of_Z zc / 10000)%float (of_Z zd / 10000)%float
           (of_Z zx) (of_Z zy) "px") ∧
  (k = "opacity" →
   ∃ z, int32 z ∧ v = Number_toString (of_Z z / 10000)%float).
Proof.
  intros H.
  assert (Hcode :
    (k ∈ transform_properties → v = placement "" (matrix props)) ∧
    (k = "MozTransform" → v = placement "px" (matrix props)) ∧
    (k = "opacity" → v = opacity_string (alpha props))).
  { repeat split; intros Hk; revert H; unfold placement, css_matrix, opacity_string;
      routine_cases this props; intros H; each_write H;
      injection H as -> ->; try done;
      by repeat (apply elem_of_cons in Hk as [Hk | Hk]; [discriminate|]);
         apply not_elem_of_nil in Hk. }
  destruct Hcode as (Ht & Hm & Ho).
  split; [|split]; intros Hk.
  - rewrite (Ht Hk). do 6 eexists.
    repeat (split; [apply wrap32_range|]). reflexivity.
  - rewrite (Hm Hk). do 6 eexists.
    repeat (split; [apply wrap32_range|]). reflexivity.
  - rewrite (Ho Hk). eexists. split; [apply wrap32_range | reflexivity].
Qed.

Lemma emitted_numbers_are_int32_witness :
  ∃ z, int32 z ∧ "0" = Number_toString (of_Z z / 10000)%float.
Proof.
  refine (proj2 (proj2 (emitted_numbers_are_int32
                          (mkDisplayProps true PrimFloat.infinity identity) fresh
                          "opacity" "0" _)) eq_refl).
  vm_compute. find_write.
Defined.

(** The transform and opacity writes of a cycle, and the cache it leaves, do
    not depend on the element's style. *)
Lemma handleDrawEnd_style_independent props this s :
  is_Some (htmlElement this) →
  filter (λ w, w.1 ≠ "visibility") (trace (_handleDrawEnd props (with_style this s)))
  = filter (λ w, w.1 ≠ "visibility") (trace (_handleDrawEnd props this)) ∧
  _oldProps (final (_handleDrawEnd props (with_style this s)))
  = _oldProps (final (_handleDrawEnd props this)).
Proof.
  intros [o Ho]. unfold _handleDrawEnd, with_style. rewrite Ho. simpl.
  destruct (visible props); simpl; repeat case_bool_decide; simpl;
    try done.
  all: destruct (_oldProps this) as [old|]; simpl;
    [ destruct (equals (matrix old) (matrix props)); simpl;
      destruct (neq (alpha old) (alpha props)); simpl
    | destruct (neq PrimFloat.nan (alpha props)); simpl ]; done.
Qed.

(** X15. Cycles with a hidden snapshot are transparent to change detection:
    the visible cycle that follows one makes the transform and opacity writes,
    and leaves the cache, it would have made and left without it. *)
Theorem hidden_cycle_defers_updates hidden props this :
  is_Some (htmlElement this) → visible hidden = false →
  let after := _handleDrawEnd props (final (_handleDrawEnd hidden this)) in
  let direct := _handleDrawEnd props this in
  filter (λ w, w.1 ≠ "visibility") (trace after)
  = filter (λ w, w.1 ≠ "visibility") (trace direct) ∧
  _oldProps (final after) = _oldProps (final direct).
Proof.
  intros Hb Hh. cbv zeta.
  assert (∃ s, final (_handleDrawEnd hidden this) = with_style this s) as [s ->].
  { destruct Hb as [o Ho]. unfold _handleDrawEnd. rewrite Ho, Hh. simpl.
    by eexists. }
  by apply handleDrawEnd_style_independent.
Qed.

Lemma hidden_cycle_defers_updates_witness :
  let hidden := mkDisplayProps false 0.5%float (mkMatrix2D 2 0 0 2 10 20)%float in
  let props := mkDisplayProps true 0.5%float (mkMatrix2D 2 0 0 2 10 20)%float in
  filter (λ w, w.1 ≠ "visibility")
    (trace (_handleDrawEnd props (final (_handleDrawEnd hidden fresh))))
  = filter (λ w, w.1 ≠ "visibility") (trace (_handleDrawEnd props fresh)) ∧
  _oldProps (final (_handleDrawEnd props (final (_handleDrawEnd hidden fresh))))
  = _oldProps (final (_handleDrawEnd props fresh)).
Proof.
  cbv zeta. apply hidden_cycle_defers_updates; [by exists fresh_element | reflexivity].
Defined.
